(** * s3cache: a Flask-Caching backend that keeps pickled values in an S3 bucket

    Shallow embedding of [src/s3_cache/s3_cache.py].  The class [S3Cache]
    talks to three collaborators that are not part of the repository: the
    boto3 S3 client, [pickle] and [logging].  They are modelled here as far
    as the adapter observes them:

    - the bucket contents are a finite map from (bucket, key) to bytes;
    - every request that reaches the backend may fail (network, permissions,
      outage): the world carries a script of outcomes, one per request, and
      a request past the end of the script behaves normally;
    - every call on the client object is recorded, the way a mock client
      records its calls;
    - [logging] appends records to a log;
    - [pickle] is an interface ([Pickler]) with two partial functions.

    Python exceptions are modelled by an outcome type: a computation returns
    a value or raises, and the world it leaves behind is kept in both
    cases. *)

From stdpp Require Import base option list gmap strings pretty.
From Stdlib Require Import ZArith Strings.Byte.

Local Open Scope string_scope.

(** ** Python values and exceptions *)

Abbreviation bytes := (list byte).

(** The fragment of Python values that the development stores in the cache.
    [PyFunction] stands for a value [pickle] refuses (a lambda, an open
    socket, ...). *)
Inductive pyval :=
| PyNone
| PyBool (b : bool)
| PyStr (s : string)
| PyBytes (b : bytes)
| PyFunction (name : string).

(** The exceptions that occur, all of them subclasses of [Exception]. *)
Inductive exn :=
| TypeError (msg : string)
| ParamValidationError (msg : string)
| ClientError (code : string)
| EndpointConnectionError
| PicklingError
| UnpicklingError.

Inductive outcome (A : Type) :=
| Ok (a : A)
| Raise (e : exn).
Arguments Ok {A} a.
Arguments Raise {A} e.

(** ** The world: bucket contents, outcomes to come, calls made, log *)

(** A call on the client object, with the arguments as they were passed.
    [head_object] and [delete_object] are generated from the service model
    and take [*args, **kwargs]; [download_fileobj] and [upload_fileobj] are
    the transfer methods boto3 adds, with ordinary positional parameters. *)
Inductive s3_call :=
| HeadObject (args : list string) (kwargs : list (string * string))
| DeleteObject (args : list string) (kwargs : list (string * string))
| DownloadFileobj (Bucket Key : string)
| UploadFileobj (Fileobj : bytes) (Bucket Key : string).

Inductive log_record :=
| LogWarning (msg : string)
| LogException (e : exn).

Record world := World {
  objects : gmap (string * string) bytes;
  faults : list (option exn);
  calls : list s3_call;
  log : list log_record
}.

Definition set_objects (o : gmap (string * string) bytes) (w : world) : world :=
  World o (faults w) (calls w) (log w).
Definition set_faults (f : list (option exn)) (w : world) : world :=
  World (objects w) f (calls w) (log w).
Definition add_call (c : s3_call) (w : world) : world :=
  World (objects w) (faults w) (calls w ++ [c]) (log w).
Definition add_log (r : log_record) (w : world) : world :=
  World (objects w) (faults w) (calls w) (log w ++ [r]).

(** ** The monad of Python computations *)

Definition M (A : Type) : Type := world → outcome A * world.

#[global] Instance M_ret : MRet M := λ A a w, (Ok a, w).
#[global] Instance M_bind : MBind M := λ A B f m w,
  match m w with
  | (Ok a, w') => f a w'
  | (Raise e, w') => (Raise e, w')
  end.

Definition raise {A} (e : exn) : M A := λ w, (Raise e, w).
Definition get_world : M world := λ w, (Ok w, w).
Definition modify_world (f : world → world) : M unit := λ w, (Ok tt, f w).

(** [try: body / except Exception as e: handler e / else: orelse a].  The
    [else] suite runs after a body that did not raise, and what it raises
    is not handled by this statement. *)
Definition try_except_else {A B} (body : M A) (handler : exn → M B)
    (orelse : A → M B) : M B := λ w,
  match body w with
  | (Ok a, w') => orelse a w'
  | (Raise e, w') => handler e w'
  end.

(** ** logging *)

(** [logging.warn] is the older name of [logging.warning].  The adapter
    passes it plain strings, not f-strings, so the text ["{key}"] is logged
    as it stands. *)
Module logging.
Definition warn (msg : string) : M unit := modify_world (add_log (LogWarning msg)).
Definition exception (e : exn) : M unit := modify_world (add_log (LogException e)).
End logging.

(** ** pickle *)

Class Pickler := {
  pickle_dumps : pyval → option bytes;
  pickle_loads : bytes → option pyval
}.

Module pickle.
Section pickle.
Context `{Pickler}.

(** [pickle.dump(value, file)] on a fresh buffer: the bytes written.  The
    adapter never looks at the class of what [pickle.dump] raises, and the
    model keeps one exception for all of them: [PicklingError] stands for
    [pickle.PicklingError] as well as for the [TypeError] or
    [AttributeError] that some objects get. *)
Definition dump (value : pyval) : M bytes :=
  match pickle_dumps value with
  | Some b => mret b
  | None => raise PicklingError
  end.

(** [pickle.load(file)] on a buffer rewound to its start.  In the same
    way [UnpicklingError] stands for whatever [pickle.load] raises
    ([pickle.UnpicklingError], [EOFError] on a truncated body, ...). *)
Definition load (file : bytes) : M pyval :=
  match pickle_loads file with
  | Some v => mret v
  | None => raise UnpicklingError
  end.
End pickle.
End pickle.

(** ** The boto3 S3 client *)

Module s3_client.

(** The outcome of the next request that reaches the backend. *)
Definition transport : M unit := λ w,
  match faults w with
  | [] => (Ok tt, w)
  | None :: fs => (Ok tt, set_faults fs w)
  | Some e :: fs => (Raise e, set_faults fs w)
  end.

Fixpoint kwarg (name : string) (kwargs : list (string * string)) : option string :=
  match kwargs with
  | [] => None
  | (n, v) :: rest => if String.eqb n name then Some v else kwarg name rest
  end.

(** A generated client method: positional arguments are refused, then the
    required parameters [Bucket] and [Key] are looked up. *)
Definition api_params (operation : string) (args : list string)
    (kwargs : list (string * string)) : M (string * string) :=
  match args with
  | _ :: _ => raise (TypeError (operation +:+ "() only accepts keyword arguments."))
  | [] =>
      match kwarg "Bucket" kwargs, kwarg "Key" kwargs with
      | Some b, Some k => mret (b, k)
      | _, _ => raise (ParamValidationError "Missing required parameter in input")
      end
  end.

Definition head_object (args : list string) (kwargs : list (string * string)) : M unit :=
  modify_world (add_call (HeadObject args kwargs));;
  bk ← api_params "head_object" args kwargs;
  transport;;
  w ← get_world;
  match objects w !! bk with
  | Some _ => mret tt
  | None => raise (ClientError "404")
  end.

Definition delete_object (args : list string) (kwargs : list (string * string)) : M unit :=
  modify_world (add_call (DeleteObject args kwargs));;
  bk ← api_params "delete_object" args kwargs;
  transport;;
  modify_world (λ w, set_objects (delete bk (objects w)) w).

(** [download_fileobj(Bucket, Key, Fileobj)]: the bytes written to the
    buffer. *)
Definition download_fileobj (Bucket Key : string) : M bytes :=
  modify_world (add_call (DownloadFileobj Bucket Key));;
  transport;;
  w ← get_world;
  match objects w !! (Bucket, Key) with
  | Some b => mret b
  | None => raise (ClientError "404")
  end.

(** [upload_fileobj(Fileobj, Bucket, Key)], with the buffer at its start. *)
Definition upload_fileobj (Fileobj : bytes) (Bucket Key : string) : M unit :=
  modify_world (add_call (UploadFileobj Fileobj Bucket Key));;
  transport;;
  modify_world (λ w, set_objects (<[(Bucket, Key) := Fileobj]> (objects w)) w).

End s3_client.

(** ** class S3Cache *)

Module S3Cache.

(** The attributes [__init__] sets.  The client itself lives in the world;
    the object keeps the arguments it was built from. *)
Record t := Build {
  default_timeout : Z;
  extra_s3_args : list (string * string);
  bucket_name : string;
  key_prefix : string
}.

Definition __init__ (bucket_name key_prefix : string) (default_timeout : Z)
    (extra_s3_args : list (string * string)) : t :=
  Build default_timeout extra_s3_args bucket_name key_prefix.

Section methods.
Context `{Pickler}.

Definition _get_full_key (self : t) (key : string) : string :=
  key_prefix self +:+ key.

Definition _key_exists (self : t) (key : string) : M bool :=
  try_except_else
    (s3_client.head_object []
       [("Bucket", bucket_name self); ("Key", _get_full_key self key)])
    (λ _, mret false)
    (λ _, mret true).

Definition get (self : t) (key : string) : M pyval :=
  found ← _key_exists self key;
  if negb found then mret PyNone
  else
    try_except_else
      (s3_client.download_fileobj (bucket_name self) (_get_full_key self key))
      (λ e,
         logging.warn "Failed to get key {key}";;
         logging.exception e;;
         mret PyNone)
      (λ value_file, pickle.load value_file).

Definition delete (self : t) (key : string) : M bool :=
  found ← _key_exists self key;
  if negb found then mret false
  else
    try_except_else
      (s3_client.delete_object [bucket_name self; _get_full_key self key] [])
      (λ e,
         logging.warn "Failed to delete key {key}";;
         logging.exception e;;
         mret false)
      (λ _, mret true).

Definition set (self : t) (key : string) (value : pyval) (timeout : option Z) : M bool :=
  value_file ← pickle.dump value;
  try_except_else
    (s3_client.upload_fileobj value_file (bucket_name self) (_get_full_key self key))
    (λ e,
       logging.warn "Error while setting key {key}";;
       logging.exception e;;
       mret false)
    (λ _, mret true).

Definition add (self : t) (key : string) (value : pyval) (timeout : option Z) : M bool :=
  found ← _key_exists self key;
  if found : bool then mret false
  else set self key value timeout.

Definition clear (self : t) (key : string) : M bool :=
  mret false.

Definition has (self : t) (key : string) : M pyval :=
  _key_exists self key;;
  mret PyNone.

End methods.

(** A call of [cache.clear] with positional arguments [args].  Python binds
    them to the parameters [self, key] before the body runs, and raises
    [TypeError] unless [key] gets exactly one. *)
Definition call_clear (self : t) (args : list string) : M bool :=
  match args with
  | [key] => clear self key
  | [] =>
      raise (TypeError
               "S3Cache.clear() missing 1 required positional argument: 'key'")
  | _ =>
      raise (TypeError
               ("S3Cache.clear() takes 2 positional arguments but "
                +:+ pretty (S (length args)) +:+ " were given"))
  end.

End S3Cache.

(** ** A pickler and a backend for running the code *)

Module testing.

(** A small self-delimiting codec standing in for [pickle]: one tag byte,
    then the payload.  Like [pickle], it refuses functions. *)
Definition dumps (v : pyval) : option bytes :=
  match v with
  | PyNone => Some ["N"%byte]
  | PyBool true => Some ["T"%byte]
  | PyBool false => Some ["F"%byte]
  | PyStr s => Some ("S"%byte :: String.list_byte_of_string s)
  | PyBytes b => Some ("B"%byte :: b)
  | PyFunction _ => None
  end.

Definition loads (b : bytes) : option pyval :=
  match b with
  | ["N"%byte] => Some PyNone
  | ["T"%byte] => Some (PyBool true)
  | ["F"%byte] => Some (PyBool false)
  | "S"%byte :: payload => Some (PyStr (String.string_of_list_byte payload))
  | "B"%byte :: payload => Some (PyBytes payload)
  | _ => None
  end.

#[global] Instance pickler : Pickler :=
  {| pickle_dumps := dumps; pickle_loads := loads |}.

(** A backend on bucket ["cache-bucket"] with its keys under ["app1:"]. *)
Definition cache : S3Cache.t := S3Cache.__init__ "cache-bucket" "app1:" 300 [].

Definition empty_world : world := World ∅ [] [] [].

(** An empty bucket behind a network that is down for one request. *)
Definition offline_world : world := World ∅ [Some EndpointConnectionError] [] [].

(** A bucket that holds one object. *)
Definition world_with (bucket key : string) (body : bytes) : world :=
  World {[ (bucket, key) := body ]} [] [] [].

End testing.

(** ** Observations on a world *)

(** The exception the next request over the wire will meet, if any. *)
Definition next_fault (w : world) : option exn :=
  match faults w with
  | Some e :: _ => Some e
  | _ => None
  end.

(** The world after one request went over the wire. *)
Definition consume (w : world) : world :=
  match faults w with
  | [] => w
  | _ :: fs => set_faults fs w
  end.

(** The backend answers the next [n] requests normally. *)
Definition backend_ok (n : nat) (w : world) : Prop :=
  Forall (λ f, f = None) (take n (faults w)).

(** The bytes stored for a cache key. *)
Definition stored (self : S3Cache.t) (key : string) (w : world) : option bytes :=
  objects w !! (S3Cache.bucket_name self, S3Cache.key_prefix self +:+ key).

(** The existence probe as the adapter issues it. *)
Definition head_call (self : S3Cache.t) (key : string) : s3_call :=
  HeadObject [] [("Bucket", S3Cache.bucket_name self);
                 ("Key", S3Cache.key_prefix self +:+ key)].

(** The bucket and the key a call on the client names, wherever the call
    carries them. *)
Definition call_target (c : s3_call) : option (string * string) :=
  match c with
  | HeadObject [] kwargs | DeleteObject [] kwargs =>
      match s3_client.kwarg "Bucket" kwargs, s3_client.kwarg "Key" kwargs with
      | Some b, Some k => Some (b, k)
      | _, _ => None
      end
  | HeadObject [b; k] _ | DeleteObject [b; k] _ => Some (b, k)
  | HeadObject _ _ | DeleteObject _ _ => None
  | DownloadFileobj b k => Some (b, k)
  | UploadFileobj _ b k => Some (b, k)
  end.

(** A computation that, from any world, only adds calls naming the storage
    key of [key] in the bucket of [self]. *)
Definition addresses {A} (self : S3Cache.t) (key : string) (m : M A) : Prop :=
  ∀ w, ∃ cs,
    calls (m w).2 = (calls w ++ cs)%list ∧
    Forall (λ c, call_target c =
                   Some (S3Cache.bucket_name self, S3Cache.key_prefix self +:+ key)) cs.

(** ** Running the client *)

Ltac unfold_monad :=
  unfold mbind, M_bind, mret, M_ret, raise, get_world, modify_world,
    try_except_else in *.

Ltac unfold_client :=
  unfold s3_client.head_object, s3_client.delete_object,
    s3_client.download_fileobj, s3_client.upload_fileobj,
    s3_client.api_params, s3_client.transport,
    logging.warn, logging.exception, pickle.dump, pickle.load in *;
  unfold_monad.

(** Case analysis on the head of the script of a world given by its
    fields. *)
Ltac script_cases w :=
  let o := fresh "o" in let f := fresh "f" in
  let c := fresh "c" in let l := fresh "l" in
  let e := fresh "e" in
  destruct w as [o f c l]; destruct f as [|[e|] f].

Section client_lemmas.

Lemma head_object_run b k w :
  s3_client.head_object [] [("Bucket", b); ("Key", k)] w =
    let w1 := consume (add_call (HeadObject [] [("Bucket", b); ("Key", k)]) w) in
    match next_fault w with
    | Some e => (Raise e, w1)
    | None =>
        match objects w !! (b, k) with
        | Some _ => (Ok tt, w1)
        | None => (Raise (ClientError "404"), w1)
        end
    end.
Proof.
  script_cases w; unfold_client; cbn; try reflexivity;
    destruct (o !! (b, k)); reflexivity.
Qed.

(** A generated method called with positional arguments raises before
    anything is sent. *)
Lemma delete_object_positional a args kwargs w :
  s3_client.delete_object (a :: args) kwargs w =
    (Raise (TypeError "delete_object() only accepts keyword arguments."),
     add_call (DeleteObject (a :: args) kwargs) w).
Proof. reflexivity. Qed.

(** Called the way [head_object] is called, it removes the object. *)
Lemma delete_object_keywords b k w :
  s3_client.delete_object [] [("Bucket", b); ("Key", k)] w =
    let w1 := consume (add_call (DeleteObject [] [("Bucket", b); ("Key", k)]) w) in
    match next_fault w with
    | Some e => (Raise e, w1)
    | None => (Ok tt, set_objects (delete (b, k) (objects w)) w1)
    end.
Proof. script_cases w; reflexivity. Qed.

Lemma download_fileobj_run b k w :
  s3_client.download_fileobj b k w =
    let w1 := consume (add_call (DownloadFileobj b k) w) in
    match next_fault w with
    | Some e => (Raise e, w1)
    | None =>
        match objects w !! (b, k) with
        | Some body => (Ok body, w1)
        | None => (Raise (ClientError "404"), w1)
        end
    end.
Proof.
  script_cases w; unfold_client; cbn; try reflexivity;
    destruct (o !! (b, k)); reflexivity.
Qed.

Lemma upload_fileobj_run body b k w :
  s3_client.upload_fileobj body b k w =
    let w1 := consume (add_call (UploadFileobj body b k) w) in
    match next_fault w with
    | Some e => (Raise e, w1)
    | None => (Ok tt, set_objects (<[(b, k) := body]> (objects w)) w1)
    end.
Proof. script_cases w; reflexivity. Qed.

Lemma objects_consume w : objects (consume w) = objects w.
Proof. unfold consume. destruct (faults w); reflexivity. Qed.

Lemma calls_consume w : calls (consume w) = calls w.
Proof. unfold consume. destruct (faults w); reflexivity. Qed.

Lemma log_consume w : log (consume w) = log w.
Proof. unfold consume. destruct (faults w); reflexivity. Qed.

Lemma faults_consume w : faults (consume w) = tail (faults w).
Proof. destruct w as [o [|f fs] c l]; reflexivity. Qed.

Lemma backend_ok_next n w : backend_ok (S n) w → next_fault w = None.
Proof.
  unfold backend_ok, next_fault. destruct (faults w) as [|[e|] fs]; auto.
  cbn. intros F. apply Forall_cons in F as [F _]. discriminate.
Qed.

Lemma backend_ok_consume n w w' :
  faults w' = faults w → backend_ok (S n) w → backend_ok n (consume w').
Proof.
  unfold backend_ok. intros E. rewrite faults_consume, E.
  destruct (faults w) as [|f fs]; cbn.
  - intros _. rewrite take_nil. constructor.
  - intros F. apply Forall_cons in F as [_ F]. exact F.
Qed.

End client_lemmas.

(** The codec used for running the code reads back what it wrote. *)
Lemma test_pickler_roundtrip v body :
  testing.dumps v = Some body → testing.loads body = Some v.
Proof.
  destruct v as [|[]|s|b|name]; cbn; intros [= <-]; try reflexivity.
  cbn. rewrite String.string_of_list_byte_of_string. reflexivity.
Qed.

(** ** The existence probe *)

Section probe.
Context `{Pickler}.
Variable self : S3Cache.t.

(** [_key_exists] never raises: it answers [True] exactly when the request
    went through and the object is there, and leaves the bucket as it
    was. *)
Lemma key_exists_run key w :
  S3Cache._key_exists self key w =
    (Ok (match next_fault w, stored self key w with
         | None, Some _ => true
         | _, _ => false
         end),
     consume (add_call (head_call self key) w)).
Proof.
  unfold S3Cache._key_exists, try_except_else, S3Cache._get_full_key.
  rewrite head_object_run. unfold stored, head_call; cbn.
  destruct (next_fault w); [reflexivity|].
  destruct (objects w !! _); reflexivity.
Qed.

Lemma key_exists_true key w :
  (S3Cache._key_exists self key w).1 = Ok true ↔
  next_fault w = None ∧ is_Some (stored self key w).
Proof.
  rewrite key_exists_run; cbn.
  destruct (next_fault w), (stored self key w); split;
    try (intros [? [? ?]]); try congruence; eauto; try discriminate.
Qed.

Lemma key_exists_false key w :
  (S3Cache._key_exists self key w).1 = Ok false ↔
  (∃ e, next_fault w = Some e) ∨ stored self key w = None.
Proof.
  rewrite key_exists_run; cbn.
  destruct (next_fault w), (stored self key w); split; eauto;
    try discriminate; intros [[? ?]|?]; discriminate.
Qed.

Lemma key_exists_world key w :
  (S3Cache._key_exists self key w).2 = consume (add_call (head_call self key) w).
Proof. rewrite key_exists_run; reflexivity. Qed.

End probe.

(** ** get, set, delete and add, step by step *)

Section runs.
Context `{Pickler}.
Variable self : S3Cache.t.

Lemma get_run key w :
  S3Cache.get self key w =
    let w1 := (S3Cache._key_exists self key w).2 in
    let w2 := consume (add_call (DownloadFileobj (S3Cache.bucket_name self)
                                   (S3Cache.key_prefix self +:+ key)) w1) in
    let failed e :=
      (Ok PyNone, add_log (LogException e)
                    (add_log (LogWarning "Failed to get key {key}") w2)) in
    match (S3Cache._key_exists self key w).1 with
    | Ok true =>
        match next_fault w1 with
        | Some e => failed e
        | None =>
            match stored self key w with
            | Some body =>
                match pickle_loads body with
                | Some v => (Ok v, w2)
                | None => (Raise UnpicklingError, w2)
                end
            | None => failed (ClientError "404")
            end
        end
    | Ok false => (Ok PyNone, w1)
    | Raise e => (Raise e, w1)
    end.
Proof.
  unfold S3Cache.get. unfold mbind at 1. unfold M_bind.
  destruct (S3Cache._key_exists self key w) as [[[]|e] w1] eqn:E; cbn;
    try reflexivity.
  unfold try_except_else, S3Cache._get_full_key.
  rewrite download_fileobj_run; cbn.
  assert (objects w1 = objects w) as Ho.
  { apply (f_equal snd) in E; cbn in E. rewrite key_exists_world in E.
    subst w1. rewrite objects_consume. reflexivity. }
  rewrite Ho. fold (stored self key w).
  destruct (next_fault w1); [reflexivity|].
  destruct (stored self key w); [|reflexivity].
  unfold pickle.load. destruct (pickle_loads l); reflexivity.
Qed.

Lemma set_run key value timeout w :
  S3Cache.set self key value timeout w =
    match pickle_dumps value with
    | None => (Raise PicklingError, w)
    | Some body =>
        let w1 := consume (add_call (UploadFileobj body (S3Cache.bucket_name self)
                                       (S3Cache.key_prefix self +:+ key)) w) in
        match next_fault w with
        | None =>
            (Ok true,
             set_objects (<[(S3Cache.bucket_name self,
                             S3Cache.key_prefix self +:+ key) := body]> (objects w)) w1)
        | Some e =>
            (Ok false, add_log (LogException e)
                         (add_log (LogWarning "Error while setting key {key}") w1))
        end
    end.
Proof.
  unfold S3Cache.set, pickle.dump. unfold mbind at 1. unfold M_bind.
  destruct (pickle_dumps value) as [body|]; [|reflexivity].
  cbn. unfold try_except_else, S3Cache._get_full_key.
  rewrite upload_fileobj_run; cbn.
  destruct (next_fault w); reflexivity.
Qed.

Lemma delete_run key w :
  S3Cache.delete self key w =
    let w1 := (S3Cache._key_exists self key w).2 in
    match (S3Cache._key_exists self key w).1 with
    | Ok true =>
        (Ok false,
         add_log (LogException
                    (TypeError "delete_object() only accepts keyword arguments."))
           (add_log (LogWarning "Failed to delete key {key}")
              (add_call (DeleteObject [S3Cache.bucket_name self;
                                       S3Cache.key_prefix self +:+ key] []) w1)))
    | Ok false => (Ok false, w1)
    | Raise e => (Raise e, w1)
    end.
Proof.
  unfold S3Cache.delete. unfold mbind at 1. unfold M_bind.
  destruct (S3Cache._key_exists self key w) as [[[]|e] w1]; reflexivity.
Qed.

Lemma add_run key value timeout w :
  S3Cache.add self key value timeout w =
    let w1 := (S3Cache._key_exists self key w).2 in
    match (S3Cache._key_exists self key w).1 with
    | Ok true => (Ok false, w1)
    | Ok false => S3Cache.set self key value timeout w1
    | Raise e => (Raise e, w1)
    end.
Proof.
  unfold S3Cache.add. unfold mbind at 1. unfold M_bind.
  destruct (S3Cache._key_exists self key w) as [[[]|e] w1]; reflexivity.
Qed.

End runs.

(** ** get *)

Section get_properties.
Context `{Pickler}.
Variable self : S3Cache.t.

(** A failed probe makes [get] return [None] at once: no download is
    attempted and nothing is logged. *)
Lemma get_probe_fails key w :
  (S3Cache._key_exists self key w).1 = Ok false →
  S3Cache.get self key w = (Ok PyNone, consume (add_call (head_call self key) w)).
Proof.
  intros E. rewrite get_run; cbn. rewrite E, key_exists_world. reflexivity.
Qed.

(** A key that was never written is not in the bucket. *)
Lemma get_never_written key w :
  stored self key w = None →
  (S3Cache._key_exists self key w).1 = Ok false ∧
  (S3Cache.get self key w).1 = Ok PyNone.
Proof.
  intros E.
  assert ((S3Cache._key_exists self key w).1 = Ok false) as P
    by (apply key_exists_false; auto).
  split; [exact P|]. rewrite get_probe_fails; auto.
Qed.

(** A download that raises is logged and [get] returns [None]. *)
Lemma get_download_fails key w e w2 :
  (S3Cache._key_exists self key w).1 = Ok true →
  s3_client.download_fileobj (S3Cache.bucket_name self)
    (S3Cache._get_full_key self key) (S3Cache._key_exists self key w).2
    = (Raise e, w2) →
  S3Cache.get self key w =
    (Ok PyNone, add_log (LogException e)
                  (add_log (LogWarning "Failed to get key {key}") w2)).
Proof.
  intros P D. unfold S3Cache.get. unfold mbind at 1. unfold M_bind.
  destruct (S3Cache._key_exists self key w) as [r w1].
  simpl fst in P; simpl snd in D; subst r.
  change (negb true) with false. cbv beta iota.
  unfold try_except_else. rewrite D. reflexivity.
Qed.

(** Bytes that [pickle.load] refuses: the exception leaves [get], and
    nothing is logged. *)
Lemma get_unpickling_error key w body w2 :
  (S3Cache._key_exists self key w).1 = Ok true →
  s3_client.download_fileobj (S3Cache.bucket_name self)
    (S3Cache._get_full_key self key) (S3Cache._key_exists self key w).2
    = (Ok body, w2) →
  pickle_loads body = None →
  S3Cache.get self key w = (Raise UnpicklingError, w2) ∧ log w2 = log w.
Proof.
  intros P D L. split.
  - unfold S3Cache.get. unfold mbind at 1. unfold M_bind.
    destruct (S3Cache._key_exists self key w) as [r w1].
    simpl fst in P; simpl snd in D; subst r.
    change (negb true) with false. cbv beta iota.
    unfold try_except_else. rewrite D.
    unfold pickle.load. rewrite L. reflexivity.
  - rewrite download_fileobj_run in D; cbn in D.
    destruct (next_fault _); [discriminate|].
    destruct (objects _ !! _); [|discriminate].
    injection D as _ <-.
    rewrite log_consume; cbn. rewrite key_exists_world, log_consume.
    reflexivity.
Qed.

End get_properties.

(** C1 (fails on the code).  [get] is claimed to return [None] whenever the
    key is unreadable, stored bytes that do not unpickle included.  In the
    code [pickle.load] sits in the [else] suite of the [try] statement, so
    its exception is not handled: with an object under ["app1:k"] whose
    bytes are not a pickle, the probe and the download succeed and [get]
    raises the unpickling error, with nothing logged. *)
Theorem get_corrupt_object_raises :
  let w := testing.world_with "cache-bucket" "app1:k" ["?"%byte] in
  (S3Cache._key_exists testing.cache "k" w).1 = Ok true ∧
  (S3Cache.get testing.cache "k" w).1 = Raise UnpicklingError ∧
  log (S3Cache.get testing.cache "k" w).2 = [] ∧
  calls (S3Cache.get testing.cache "k" w).2 =
    [HeadObject [] [("Bucket", "cache-bucket"); ("Key", "app1:k")];
     DownloadFileobj "cache-bucket" "app1:k"].
Proof. vm_compute. repeat split. Qed.

(** ** set *)

Section set_properties.
Context `{Pickler}.
Variable self : S3Cache.t.

(** C2.  [set] returns [True] when pickling and the upload succeed; it
    returns [False], after logging a warning and the exception, when the
    upload raises; and a pickling error leaves [set] as an exception with
    the world untouched, so that no upload was attempted. *)
Theorem set_outcomes key value timeout w :
  (∀ body w',
     pickle_dumps value = Some body →
     s3_client.upload_fileobj body (S3Cache.bucket_name self)
       (S3Cache._get_full_key self key) w = (Ok tt, w') →
     S3Cache.set self key value timeout w = (Ok true, w')) ∧
  (∀ body e w',
     pickle_dumps value = Some body →
     s3_client.upload_fileobj body (S3Cache.bucket_name self)
       (S3Cache._get_full_key self key) w = (Raise e, w') →
     S3Cache.set self key value timeout w =
       (Ok false, add_log (LogException e)
                    (add_log (LogWarning "Error while setting key {key}") w'))) ∧
  (pickle_dumps value = None →
     S3Cache.set self key value timeout w = (Raise PicklingError, w)).
Proof.
  unfold S3Cache.set, pickle.dump, try_except_else.
  repeat split.
  - intros body w' -> U. unfold mbind, M_bind, mret, M_ret.
    rewrite U. reflexivity.
  - intros body e w' -> U. unfold mbind, M_bind, mret, M_ret.
    rewrite U. reflexivity.
  - intros ->. reflexivity.
Qed.

(** The object a successful [set] leaves in the bucket. *)
Lemma set_stores key value timeout body w :
  pickle_dumps value = Some body →
  next_fault w = None →
  (S3Cache.set self key value timeout w).1 = Ok true ∧
  stored self key (S3Cache.set self key value timeout w).2 = Some body.
Proof.
  intros D F. rewrite set_run, D; cbn. rewrite F; cbn. split; [reflexivity|].
  unfold stored; cbn. apply lookup_insert_eq.
Qed.

End set_properties.

(** Witness of C2: the three outcomes of [set] on an empty bucket. *)
Lemma set_outcomes_witness :
  S3Cache.set testing.cache "k" (PyStr "v") None testing.empty_world =
    (Ok true,
     World {[ ("cache-bucket", "app1:k") := ["S"%byte; "v"%byte] ]} []
       [UploadFileobj ["S"%byte; "v"%byte] "cache-bucket" "app1:k"] []) ∧
  S3Cache.set testing.cache "k" (PyStr "v") None testing.offline_world =
    (Ok false,
     World ∅ [] [UploadFileobj ["S"%byte; "v"%byte] "cache-bucket" "app1:k"]
       [LogWarning "Error while setting key {key}";
        LogException EndpointConnectionError]) ∧
  S3Cache.set testing.cache "k" (PyFunction "f") None testing.empty_world =
    (Raise PicklingError, testing.empty_world).
Proof.
  split; [|split].
  - apply (proj1 (set_outcomes testing.cache "k" (PyStr "v") None
                    testing.empty_world) ["S"%byte; "v"%byte]);
      vm_compute; reflexivity.
  - apply (proj1 (proj2 (set_outcomes testing.cache "k" (PyStr "v") None
                           testing.offline_world))
             ["S"%byte; "v"%byte] EndpointConnectionError
             (World ∅ [] [UploadFileobj ["S"%byte; "v"%byte] "cache-bucket" "app1:k"] []));
      vm_compute; reflexivity.
  - apply (proj2 (proj2 (set_outcomes testing.cache "k" (PyFunction "f") None
                           testing.empty_world))).
    reflexivity.
Defined.

(** ** set followed by get *)

Section roundtrip.
Context `{Pickler}.
Variable self : S3Cache.t.

(** C3.  When the value pickles, its pickle loads back to it and the
    backend answers the three requests (upload, probe, download)
    normally, [set] returns [True] and the [get] that follows returns the
    value. *)
Theorem set_get_roundtrip key value timeout body w :
  pickle_dumps value = Some body →
  pickle_loads body = Some value →
  backend_ok 3 w →
  ∃ w1 w2,
    S3Cache.set self key value timeout w = (Ok true, w1) ∧
    S3Cache.get self key w1 = (Ok value, w2).
Proof.
  intros D L B.
  rewrite set_run, D. cbv zeta. rewrite (backend_ok_next _ _ B).
  eexists. eexists. split; [reflexivity|].
  match goal with |- S3Cache.get _ _ ?w = _ => set (w1 := w) end.
  assert (backend_ok 2 w1) as B1
    by (apply (backend_ok_consume 2 w); [reflexivity | exact B]).
  assert (stored self key w1 = Some body) as S1
    by (unfold stored; cbn; apply lookup_insert_eq).
  rewrite get_run. cbv zeta. rewrite key_exists_run.
  cbn [fst snd]. rewrite (backend_ok_next _ _ B1), S1.
  assert (backend_ok 1 (consume (add_call (head_call self key) w1))) as B2
    by (apply (backend_ok_consume 1 w1); [reflexivity | exact B1]).
  rewrite (backend_ok_next _ _ B2), L. reflexivity.
Qed.

End roundtrip.

(** Witness of C3: a string stored in an empty bucket and read back. *)
Lemma set_get_roundtrip_witness :
  ∃ w1 w2,
    S3Cache.set testing.cache "session-42" (PyStr "alice") None testing.empty_world
      = (Ok true, w1) ∧
    S3Cache.get testing.cache "session-42" w1 = (Ok (PyStr "alice"), w2).
Proof.
  apply (set_get_roundtrip testing.cache "session-42" (PyStr "alice") None
           ("S"%byte :: String.list_byte_of_string "alice") testing.empty_world).
  - reflexivity.
  - reflexivity.
  - vm_compute. constructor.
Defined.

(** ** delete *)

Section delete_properties.
Context `{Pickler}.
Variable self : S3Cache.t.

(** On a key that is not in the bucket [delete] returns [False] after the
    probe alone: no delete call, no log record, the bucket as it was. *)
Lemma delete_missing_key key w :
  stored self key w = None →
  S3Cache.delete self key w = (Ok false, consume (add_call (head_call self key) w)) ∧
  objects (S3Cache.delete self key w).2 = objects w.
Proof.
  intros E. rewrite delete_run, key_exists_run; cbn. rewrite E.
  destruct (next_fault w); (split; [reflexivity|]); cbn;
    rewrite objects_consume; reflexivity.
Qed.

(** C4.  [delete] hands the bucket name and the key to [delete_object] as
    positional arguments; the client refuses them with a [TypeError]
    before anything is sent.  So [delete] returns [False] in every world,
    the bucket is left as it was, and when the probe had found the key the
    refusal is what gets logged. *)
Theorem delete_never_returns_true key w :
  (s3_client.delete_object
     [S3Cache.bucket_name self; S3Cache._get_full_key self key] [] w).1
    = Raise (TypeError "delete_object() only accepts keyword arguments.") ∧
  (S3Cache.delete self key w).1 = Ok false ∧
  objects (S3Cache.delete self key w).2 = objects w ∧
  log (S3Cache.delete self key w).2 =
    (log w ++
     match (S3Cache._key_exists self key w).1 with
     | Ok true =>
         [LogWarning "Failed to delete key {key}";
          LogException (TypeError "delete_object() only accepts keyword arguments.")]
     | _ => []
     end)%list.
Proof.
  split; [reflexivity|].
  rewrite delete_run, key_exists_run. cbv zeta. cbn [fst snd].
  destruct (next_fault w), (stored self key w); cbn;
    rewrite ?objects_consume, ?log_consume; cbn;
    rewrite ?app_nil_r, <- ?app_assoc; repeat split; reflexivity.
Qed.

End delete_properties.

(** C5 (fails on the code).  [delete] on an existing key is claimed to
    remove the object and return [True].  With ["app1:session-42"] in the
    bucket and a backend that answers every request, the probe finds the
    key, the positional call to [delete_object] is refused, and [delete]
    returns [False]; the object is still there and [get] still returns its
    value. *)
Theorem delete_existing_key_fails :
  let body := "S"%byte :: String.list_byte_of_string "alice" in
  let w := testing.world_with "cache-bucket" "app1:session-42" body in
  let w' := (S3Cache.delete testing.cache "session-42" w).2 in
  (S3Cache._key_exists testing.cache "session-42" w).1 = Ok true ∧
  (S3Cache.delete testing.cache "session-42" w).1 = Ok false ∧
  stored testing.cache "session-42" w' = Some body ∧
  (S3Cache.get testing.cache "session-42" w').1 = Ok (PyStr "alice") ∧
  log w' =
    [LogWarning "Failed to delete key {key}";
     LogException (TypeError "delete_object() only accepts keyword arguments.")].
Proof. vm_compute. repeat split. Qed.

(** ** add *)

Section add_properties.
Context `{Pickler}.
Variable self : S3Cache.t.

(** C6, as amended.  When the probe succeeds [add] returns [False] and the
    probe is the only call made; otherwise [add] is [set] run after the
    probe.  And from a world where the key is not stored, the first value
    pickles and the backend answers the three requests of the two calls
    normally, the first [add] stores the value and the second leaves it
    there. *)
Theorem add_checks_then_sets key v1 v2 t1 t2 w :
  ((S3Cache._key_exists self key w).1 = Ok true →
     S3Cache.add self key v1 t1 w =
       (Ok false, consume (add_call (head_call self key) w)) ∧
     objects (S3Cache.add self key v1 t1 w).2 = objects w ∧
     calls (S3Cache.add self key v1 t1 w).2 = (calls w ++ [head_call self key])%list) ∧
  ((S3Cache._key_exists self key w).1 = Ok false →
     S3Cache.add self key v1 t1 w =
       S3Cache.set self key v1 t1 (S3Cache._key_exists self key w).2) ∧
  (∀ body,
     stored self key w = None →
     pickle_dumps v1 = Some body →
     backend_ok 3 w →
     ∃ w1 w2,
       S3Cache.add self key v1 t1 w = (Ok true, w1) ∧
       S3Cache.add self key v2 t2 w1 = (Ok false, w2) ∧
       stored self key w2 = Some body).
Proof.
  split; [|split].
  - intros P. rewrite add_run, P, key_exists_world. cbn.
    rewrite objects_consume, calls_consume. auto.
  - intros P. rewrite add_run, P. reflexivity.
  - intros body S0 D B.
    rewrite add_run, key_exists_run. cbv zeta. cbn [fst snd].
    rewrite (backend_ok_next _ _ B), S0.
    assert (backend_ok 2 (consume (add_call (head_call self key) w))) as B1
      by (apply (backend_ok_consume 2 w); [reflexivity | exact B]).
    rewrite set_run, D. cbv zeta. rewrite (backend_ok_next _ _ B1).
    eexists. eexists. split; [reflexivity|].
    match goal with |- S3Cache.add _ _ _ _ ?w = _ ∧ _ => set (w1 := w) end.
    assert (backend_ok 1 w1) as B2
      by (apply (backend_ok_consume 1 (consume (add_call (head_call self key) w)));
          [reflexivity | exact B1]).
    assert (stored self key w1 = Some body) as S1
      by (unfold stored; cbn; apply lookup_insert_eq).
    rewrite add_run, key_exists_run. cbv zeta. cbn [fst snd].
    rewrite (backend_ok_next _ _ B2), S1. split; [reflexivity|].
    unfold stored. rewrite objects_consume. exact S1.
Qed.

End add_properties.

(** Witness of C6 as amended, on a bucket that holds the key (first part),
    on an empty bucket (second part), and for two [add]s in a row on an
    empty bucket. *)
Lemma add_checks_then_sets_witness :
  S3Cache.add testing.cache "k" (PyStr "b") None
    (testing.world_with "cache-bucket" "app1:k" ["S"%byte; "a"%byte])
  = (Ok false,
     World {[ ("cache-bucket", "app1:k") := ["S"%byte; "a"%byte] ]} []
       [head_call testing.cache "k"] []) ∧
  S3Cache.add testing.cache "k" (PyStr "a") None testing.empty_world
  = S3Cache.set testing.cache "k" (PyStr "a") None
      (World ∅ [] [head_call testing.cache "k"] []) ∧
  ∃ w1 w2,
    S3Cache.add testing.cache "k" (PyStr "a") None testing.empty_world = (Ok true, w1) ∧
    S3Cache.add testing.cache "k" (PyStr "b") (Some 60%Z) w1 = (Ok false, w2) ∧
    stored testing.cache "k" w2 = Some ["S"%byte; "a"%byte].
Proof.
  split; [|split].
  - apply (proj1 (add_checks_then_sets testing.cache "k" (PyStr "b") PyNone None None
                    (testing.world_with "cache-bucket" "app1:k" ["S"%byte; "a"%byte]))).
    vm_compute; reflexivity.
  - apply (proj1 (proj2 (add_checks_then_sets testing.cache "k" (PyStr "a") PyNone
                           None None testing.empty_world))).
    vm_compute; reflexivity.
  - apply (proj2 (proj2 (add_checks_then_sets testing.cache "k" (PyStr "a") (PyStr "b")
                           None (Some 60%Z) testing.empty_world))
             ["S"%byte; "a"%byte]).
    + vm_compute; reflexivity.
    + reflexivity.
    + vm_compute. constructor.
Defined.

(** C6 as stated fails in two ways, with no other writer at work.  First,
    the second probe may fail: on an empty bucket whose backend answers two
    requests and then is unreachable for one, both [add]s return [True] and
    the bucket ends up with the second value.  Second, the key may hold a
    value already: both [add]s return [False] and that value stays. *)
Lemma add_twice_counterexample :
  (let w := World ∅ [None; None; Some EndpointConnectionError] [] [] in
   let r1 := S3Cache.add testing.cache "k" (PyStr "a") None w in
   let r2 := S3Cache.add testing.cache "k" (PyStr "b") None r1.2 in
   r1.1 = Ok true ∧ r2.1 = Ok true ∧
   stored testing.cache "k" r2.2 = pickle_dumps (PyStr "b") ∧
   stored testing.cache "k" r2.2 ≠ pickle_dumps (PyStr "a") ∧
   (S3Cache.get testing.cache "k" r2.2).1 = Ok (PyStr "b")) ∧
  (let w := testing.world_with "cache-bucket" "app1:k" ["S"%byte; "z"%byte] in
   let r1 := S3Cache.add testing.cache "k" (PyStr "a") None w in
   let r2 := S3Cache.add testing.cache "k" (PyStr "b") None r1.2 in
   r1.1 = Ok false ∧ r2.1 = Ok false ∧
   stored testing.cache "k" r2.2 = pickle_dumps (PyStr "z") ∧
   stored testing.cache "k" r2.2 ≠ pickle_dumps (PyStr "a") ∧
   (S3Cache.get testing.cache "k" r2.2).1 = Ok (PyStr "z")).
Proof. vm_compute. repeat split; discriminate. Qed.

(** ** has and clear *)

Section has_clear.
Context `{Pickler}.
Variable self : S3Cache.t.

(** C7.  [has] runs the probe of [_key_exists] and drops its answer: it
    returns [None] in every world, found or not, and leaves the world the
    probe leaves. *)
Theorem has_discards_probe key w :
  S3Cache.has self key w = (Ok PyNone, (S3Cache._key_exists self key w).2) ∧
  (∃ found, (S3Cache._key_exists self key w).1 = Ok found) ∧
  calls (S3Cache.has self key w).2 = (calls w ++ [head_call self key])%list.
Proof.
  unfold S3Cache.has. unfold mbind, M_bind.
  rewrite key_exists_run. cbn [fst snd]. split; [reflexivity|].
  split; [eexists; reflexivity|].
  cbn. rewrite calls_consume. reflexivity.
Qed.

(** The body of [clear], once it runs, returns [False] and leaves the world
    as it found it: the bucket, the list of calls made and the log are
    unchanged.  The [key] parameter is not used. *)
Lemma clear_returns_false key w :
  S3Cache.clear self key w = (Ok false, w) ∧
  calls (S3Cache.clear self key w).2 = calls w ∧
  objects (S3Cache.clear self key w).2 = objects w.
Proof. repeat split. Qed.

(** C8 (fails on the code).  [clear()] is claimed to return [False] always.
    The method is declared as [clear(self, key)], with a parameter its body
    never uses and that neither its docstring nor the cache interface
    knows: the call without argument raises [TypeError] before the body
    runs, in every world.  Nothing is requested, removed or logged, and
    with one argument, whichever it is, the result is [False]. *)
Theorem clear_without_argument_raises w :
  S3Cache.call_clear self [] w =
    (Raise (TypeError
              "S3Cache.clear() missing 1 required positional argument: 'key'"),
     w) ∧
  (∀ key, S3Cache.call_clear self [key] w = (Ok false, w)) ∧
  (∀ args, (S3Cache.call_clear self args w).2 = w) ∧
  (∀ args, (S3Cache.call_clear self args w).1 = Ok false ↔ length args = 1).
Proof.
  split; [reflexivity|]. split; [reflexivity|]. split.
  - intros [|a [|b args]]; reflexivity.
  - intros [|a [|b args]]; cbn; split; intros E; try reflexivity;
      discriminate.
Qed.

End has_clear.

(** ** Timeouts *)

(** C9.  [set] and [add] do the same whatever timeout they are given, and
    the [default_timeout] kept by the constructor changes nothing in any
    method. *)
Theorem timeout_has_no_effect `{Pickler} :
  (∀ self key value t1 t2 w,
     S3Cache.set self key value t1 w = S3Cache.set self key value t2 w ∧
     S3Cache.add self key value t1 w = S3Cache.add self key value t2 w) ∧
  (∀ bucket prefix d1 d2 args,
     let c1 := S3Cache.__init__ bucket prefix d1 args in
     let c2 := S3Cache.__init__ bucket prefix d2 args in
     S3Cache.default_timeout c1 = d1 ∧
     ∀ key value t w,
       S3Cache._key_exists c1 key w = S3Cache._key_exists c2 key w ∧
       S3Cache.get c1 key w = S3Cache.get c2 key w ∧
       S3Cache.delete c1 key w = S3Cache.delete c2 key w ∧
       S3Cache.set c1 key value t w = S3Cache.set c2 key value t w ∧
       S3Cache.add c1 key value t w = S3Cache.add c2 key value t w ∧
       S3Cache.clear c1 key w = S3Cache.clear c2 key w ∧
       S3Cache.has c1 key w = S3Cache.has c2 key w).
Proof.
  split.
  - intros. split; reflexivity.
  - intros. split; [reflexivity|]. intros. repeat split.
Qed.

(** ** Storage keys *)

Section storage_keys.
Context `{Pickler}.
Variable self : S3Cache.t.

Ltac calls_of_world :=
  repeat (cbn [calls add_log add_call set_objects fst snd];
          rewrite ?calls_consume);
  rewrite <- ?app_assoc.

Ltac found_calls :=
  eexists; split; [calls_of_world; reflexivity | repeat constructor].

Lemma key_exists_addresses key : addresses self key (S3Cache._key_exists self key).
Proof. intros w. rewrite key_exists_run. found_calls. Qed.

Lemma get_addresses key : addresses self key (S3Cache.get self key).
Proof.
  intros w. rewrite get_run, key_exists_run. cbv zeta. cbn [fst snd].
  destruct (next_fault w), (stored self key w);
    try destruct (next_fault _); try destruct (pickle_loads _); found_calls.
Qed.

Lemma set_addresses key value timeout :
  addresses self key (S3Cache.set self key value timeout).
Proof.
  intros w. rewrite set_run.
  destruct (pickle_dumps value); [destruct (next_fault w)|].
  - found_calls.
  - found_calls.
  - exists []. rewrite app_nil_r. split; [reflexivity | constructor].
Qed.

Lemma delete_addresses key : addresses self key (S3Cache.delete self key).
Proof.
  intros w. rewrite delete_run, key_exists_run. cbv zeta. cbn [fst snd].
  destruct (next_fault w), (stored self key w); found_calls.
Qed.

Lemma add_addresses key value timeout :
  addresses self key (S3Cache.add self key value timeout).
Proof.
  intros w. rewrite add_run, key_exists_run. cbv zeta. cbn [fst snd].
  destruct (next_fault w), (stored self key w); try found_calls;
    rewrite set_run; destruct (pickle_dumps value);
    try destruct (next_fault _); found_calls.
Qed.

Lemma has_addresses key : addresses self key (S3Cache.has self key).
Proof.
  intros w. unfold S3Cache.has. unfold mbind, M_bind, mret, M_ret.
  rewrite key_exists_run. found_calls.
Qed.

(** C10.  The storage key of a cache key is the prefix followed by the
    cache key, the prefix being the one given to the constructor; and
    every call that [get], [set], [delete], [add] and [has] make on the
    client names that key in the bucket of the cache. *)
Theorem storage_key_is_prefix_then_key key value timeout :
  S3Cache._get_full_key self key = S3Cache.key_prefix self +:+ key ∧
  (∀ bucket prefix d args,
     S3Cache.key_prefix (S3Cache.__init__ bucket prefix d args) = prefix) ∧
  S3Cache._get_full_key (S3Cache.__init__ "cache-bucket" "app1:" 300 [])
    "session-42" = "app1:session-42" ∧
  addresses self key (S3Cache.get self key) ∧
  addresses self key (S3Cache.set self key value timeout) ∧
  addresses self key (S3Cache.delete self key) ∧
  addresses self key (S3Cache.add self key value timeout) ∧
  addresses self key (S3Cache.has self key).
Proof.
  split; [reflexivity|]. split; [reflexivity|]. split; [reflexivity|].
  pose proof (get_addresses key). pose proof (set_addresses key value timeout).
  pose proof (delete_addresses key). pose proof (add_addresses key value timeout).
  pose proof (has_addresses key). auto 10.
Qed.

End storage_keys.

(** ** More on the probe and on get *)

Section reading.
Context `{Pickler}.
Variable self : S3Cache.t.

(** X1.  The probe never raises.  It answers [True] exactly when the backend
    answered the request and the object is stored, and [False] for every
    exception, whichever it is; it makes one call and leaves the bucket and
    the log as they were. *)
Theorem key_exists_answer key w :
  ∃ found w',
    S3Cache._key_exists self key w = (Ok found, w') ∧
    (found = true ↔ next_fault w = None ∧ is_Some (stored self key w)) ∧
    objects w' = objects w ∧ log w' = log w ∧
    calls w' = (calls w ++ [head_call self key])%list.
Proof.
  rewrite key_exists_run. eexists. eexists. split; [reflexivity|].
  rewrite objects_consume, log_consume, calls_consume. cbn.
  repeat split; try reflexivity.
  - destruct (next_fault w); [discriminate|reflexivity].
  - destruct (next_fault w); [discriminate|].
    destruct (stored self key w); [eauto|discriminate].
  - intros [-> [body ->]]. reflexivity.
Qed.

(** X2.  [get] only reads: in every world, errors included, the bucket is left
    as it was; so is it by [has]. *)
Theorem get_leaves_bucket key w :
  objects (S3Cache.get self key w).2 = objects w ∧
  objects (S3Cache.has self key w).2 = objects w.
Proof.
  split.
  - rewrite get_run, key_exists_run. cbv zeta. cbn [fst snd].
    destruct (next_fault w), (stored self key w);
      try destruct (next_fault _); try destruct (pickle_loads _);
      cbn; rewrite ?objects_consume; cbn; rewrite ?objects_consume; reflexivity.
  - unfold S3Cache.has. unfold mbind, M_bind, mret, M_ret.
    rewrite key_exists_run. cbn. rewrite objects_consume. reflexivity.
Qed.

(** X3.  No exception of the backend leaves [get]: [get] raises exactly
    when the probe and the download both went through and [pickle.load]
    then fails on the stored bytes, and what leaves [get] is what
    [pickle.load] raised. *)
Theorem get_raises_iff key w :
  ((∃ e, (S3Cache.get self key w).1 = Raise e) ↔
     next_fault w = None ∧
     next_fault (consume (add_call (head_call self key) w)) = None ∧
     ∃ body, stored self key w = Some body ∧ pickle_loads body = None) ∧
  (∀ e, (S3Cache.get self key w).1 = Raise e →
     ∃ body w', stored self key w = Some body ∧ pickle.load body w' = (Raise e, w')).
Proof.
  rewrite get_run, key_exists_run. cbv zeta. cbn [fst snd].
  destruct (next_fault w) as [e0|] eqn:F0.
  { cbn. split; [split|]; [intros [? ?] | intros (? & _) | intros ? ?];
      discriminate. }
  destruct (stored self key w) as [body|] eqn:S0.
  2:{ cbn. split; [split|]; [intros [? ?] | intros (_ & _ & ? & ? & _) | intros ? ?];
        discriminate. }
  destruct (next_fault (consume _)) as [e1|] eqn:F1.
  { cbn. split; [split|]; [intros [? ?] | intros (_ & ? & _) | intros ? ?];
      discriminate. }
  unfold pickle.load. destruct (pickle_loads body) as [v|] eqn:L; cbn.
  - split; [split|]; [intros [? ?]; discriminate | | intros ? ?; discriminate].
    intros (_ & _ & body' & [= <-] & L'). congruence.
  - split; [split|].
    + intros _. eauto 10.
    + intros _. eauto.
    + intros e E. exists body, w. rewrite L. split; [reflexivity|].
      injection E as <-. reflexivity.
Qed.

(** X4.  What [get] returns, when it is not [None], is what the stored bytes
    unpickle to. *)
Theorem get_returns_stored_value key w v :
  (S3Cache.get self key w).1 = Ok v →
  v ≠ PyNone →
  ∃ body, stored self key w = Some body ∧ pickle_loads body = Some v.
Proof.
  rewrite get_run, key_exists_run. cbv zeta. cbn [fst snd].
  destruct (next_fault w); [cbn; intros [= <-] N; destruct N; reflexivity|].
  destruct (stored self key w) as [body|];
    [|cbn; intros [= <-] N; destruct N; reflexivity].
  destruct (next_fault (consume _));
    [cbn; intros [= <-] N; destruct N; reflexivity|].
  destruct (pickle_loads body) as [v'|] eqn:L; cbn; [|discriminate].
  intros [= ->] _. eauto.
Qed.

(** X5.  [get] writes to the log exactly when the probe answered [True]
    and the download then raised: it appends the warning and the exception
    the download raised, in this order, and returns [None].  In every other
    case the log is left as it was. *)
Theorem get_log key w :
  let probe := S3Cache._key_exists self key w in
  let download :=
    s3_client.download_fileobj (S3Cache.bucket_name self)
      (S3Cache._get_full_key self key) probe.2 in
  match probe.1, download.1 with
  | Ok true, Raise e =>
      (S3Cache.get self key w).1 = Ok PyNone ∧
      log (S3Cache.get self key w).2 =
        (log w ++ [LogWarning "Failed to get key {key}"; LogException e])%list
  | _, _ => log (S3Cache.get self key w).2 = log w
  end.
Proof.
  cbv zeta. unfold S3Cache._get_full_key.
  rewrite get_run, download_fileobj_run, key_exists_run.
  cbv zeta. cbn [fst snd].
  rewrite objects_consume. cbn [objects add_call].
  fold (stored self key w).
  destruct (next_fault w), (stored self key w);
    try destruct (next_fault _); try destruct (pickle_loads _);
    cbn; rewrite ?log_consume; cbn; rewrite ?log_consume; try reflexivity;
    (split; [reflexivity|]); rewrite <- app_assoc; reflexivity.
Qed.

End reading.

(** Witness of X3: an object that is not a pickle; the exception [get]
    raises is the one [pickle.load] raises on its body. *)
Lemma get_raises_iff_witness :
  ∃ body w',
    stored testing.cache "k"
      (testing.world_with "cache-bucket" "app1:k" ["?"%byte]) = Some body ∧
    pickle.load body w' = (Raise UnpicklingError, w').
Proof.
  apply (proj2 (get_raises_iff testing.cache "k"
                  (testing.world_with "cache-bucket" "app1:k" ["?"%byte]))
           UnpicklingError).
  vm_compute; reflexivity.
Defined.

(** Witness of X4: a bucket holding a pickled string: [get] returns the string. *)
Lemma get_returns_stored_value_witness :
  ∃ body,
    stored testing.cache "k" (testing.world_with "cache-bucket" "app1:k"
                                ["S"%byte; "v"%byte]) = Some body ∧
    pickle_loads body = Some (PyStr "v").
Proof.
  apply (get_returns_stored_value testing.cache "k"
           (testing.world_with "cache-bucket" "app1:k" ["S"%byte; "v"%byte])
           (PyStr "v")).
  - vm_compute; reflexivity.
  - discriminate.
Defined.

(** ** Successful steps, for composing operations *)

Section steps.
Context `{Pickler}.
Variable self : S3Cache.t.

Lemma backend_ok_faults n w w' :
  faults w' = faults w → backend_ok n w → backend_ok n w'.
Proof. unfold backend_ok. intros ->. auto. Qed.

Lemma key_exists_step n key w :
  backend_ok (S n) w →
  ∃ w',
    S3Cache._key_exists self key w =
      (Ok (bool_decide (is_Some (stored self key w))), w') ∧
    backend_ok n w' ∧ objects w' = objects w.
Proof.
  intros B. rewrite key_exists_run, (backend_ok_next _ _ B).
  eexists. split; [destruct (stored self key w); reflexivity|]. split.
  - apply (backend_ok_consume n w); [reflexivity | exact B].
  - rewrite objects_consume. reflexivity.
Qed.

Lemma set_step n key value timeout body w :
  pickle_dumps value = Some body →
  backend_ok (S n) w →
  ∃ w',
    S3Cache.set self key value timeout w = (Ok true, w') ∧
    backend_ok n w' ∧
    objects w' =
      <[(S3Cache.bucket_name self, S3Cache.key_prefix self +:+ key) := body]>
        (objects w).
Proof.
  intros D B. rewrite set_run, D. cbv zeta. rewrite (backend_ok_next _ _ B).
  eexists. split; [reflexivity|]. split; [|reflexivity].
  apply (backend_ok_faults n (consume (add_call
           (UploadFileobj body (S3Cache.bucket_name self)
              (S3Cache.key_prefix self +:+ key)) w))); [reflexivity|].
  apply (backend_ok_consume n w); [reflexivity | exact B].
Qed.

Lemma get_step n key body v w :
  stored self key w = Some body →
  pickle_loads body = Some v →
  backend_ok (S (S n)) w →
  ∃ w',
    S3Cache.get self key w = (Ok v, w') ∧
    backend_ok n w' ∧ objects w' = objects w.
Proof.
  intros S0 L B. rewrite get_run, key_exists_run. cbv zeta. cbn [fst snd].
  rewrite (backend_ok_next _ _ B), S0.
  assert (backend_ok (S n) (consume (add_call (head_call self key) w))) as B1
    by (apply (backend_ok_consume (S n) w); [reflexivity | exact B]).
  rewrite (backend_ok_next _ _ B1), L.
  eexists. split; [reflexivity|]. split.
  - apply (backend_ok_consume n (consume (add_call (head_call self key) w)));
      [reflexivity | exact B1].
  - rewrite objects_consume. cbn. rewrite objects_consume. reflexivity.
Qed.

End steps.

(** ** What set and add write *)

Section writing.
Context `{Pickler}.
Variable self : S3Cache.t.

(** X6.  [set] returns [True] exactly when the value pickles and the backend
    takes the upload.  When it does, the object under the storage key is the
    pickle of the value; when it does not, whether it returns [False] or
    raises, the bucket is left as it was. *)
Theorem set_true_iff key value timeout w :
  ((S3Cache.set self key value timeout w).1 = Ok true ↔
     is_Some (pickle_dumps value) ∧ next_fault w = None) ∧
  ((S3Cache.set self key value timeout w).1 = Ok true →
     stored self key (S3Cache.set self key value timeout w).2 = pickle_dumps value) ∧
  ((S3Cache.set self key value timeout w).1 ≠ Ok true →
     objects (S3Cache.set self key value timeout w).2 = objects w).
Proof.
  rewrite set_run.
  destruct (pickle_dumps value) as [body|]; [destruct (next_fault w)|]; cbn.
  - split; [split; [discriminate | intros [_ ?]; discriminate]|].
    split; [discriminate|]. intros _. rewrite objects_consume. reflexivity.
  - split; [split; eauto|]. split; [|congruence].
    intros _. unfold stored; cbn. apply lookup_insert_eq.
  - split; [split; [discriminate | intros [[? ?] _]; discriminate]|].
    split; [discriminate | reflexivity].
Qed.

(** X7.  [set] and [add] change at most one object of the store: the one under
    the storage key, in the bucket of the cache. *)
Theorem set_touches_one_object key value timeout w bk :
  bk ≠ (S3Cache.bucket_name self, S3Cache.key_prefix self +:+ key) →
  objects (S3Cache.set self key value timeout w).2 !! bk = objects w !! bk ∧
  objects (S3Cache.add self key value timeout w).2 !! bk = objects w !! bk.
Proof.
  intros N.
  assert (∀ w0, objects (S3Cache.set self key value timeout w0).2 !! bk
                = objects w0 !! bk) as S.
  { intros w0. rewrite set_run.
    destruct (pickle_dumps value); [destruct (next_fault w0)|]; cbn;
      rewrite ?objects_consume; cbn; try reflexivity.
    apply lookup_insert_ne. congruence. }
  split; [apply S|].
  rewrite add_run, key_exists_run. cbv zeta. cbn [fst snd].
  destruct (next_fault w), (stored self key w); cbn [snd];
    rewrite ?S, objects_consume; reflexivity.
Qed.

(** X8.  Within one cache, [set] and [add] on a key leave what is stored under
    every other key. *)
Theorem set_leaves_other_keys key key' value timeout w :
  key' ≠ key →
  stored self key' (S3Cache.set self key value timeout w).2 = stored self key' w ∧
  stored self key' (S3Cache.add self key value timeout w).2 = stored self key' w.
Proof.
  intros N. unfold stored. apply set_touches_one_object.
  intros [= E]. apply N. exact (String.app_inj _ _ _ E).
Qed.

End writing.

(** Witness of X6: the stored object after a [set] that returned [True]. *)
Lemma set_true_iff_witness :
  stored testing.cache "k"
    (S3Cache.set testing.cache "k" (PyStr "v") None testing.empty_world).2
  = pickle_dumps (PyStr "v").
Proof.
  apply (proj1 (proj2 (set_true_iff testing.cache "k" (PyStr "v") None
                         testing.empty_world))).
  vm_compute; reflexivity.
Defined.

(** Witness of X7: a [set] on ["k"] and the object of another bucket. *)
Lemma set_touches_one_object_witness :
  objects (S3Cache.set testing.cache "k" (PyStr "v") None
             (testing.world_with "other-bucket" "app1:k" ["N"%byte])).2
    !! ("other-bucket", "app1:k") = Some ["N"%byte].
Proof.
  refine (proj1 (set_touches_one_object testing.cache "k" (PyStr "v") None
                   (testing.world_with "other-bucket" "app1:k" ["N"%byte])
                   ("other-bucket", "app1:k") _)).
  vm_compute. discriminate.
Defined.

(** Witness of X8: a [set] on ["k"] and the value under ["j"]. *)
Lemma set_leaves_other_keys_witness :
  stored testing.cache "j"
    (S3Cache.set testing.cache "k" (PyStr "v") None
       (testing.world_with "cache-bucket" "app1:j" ["N"%byte])).2
  = Some ["N"%byte].
Proof.
  refine (proj1 (set_leaves_other_keys testing.cache "k" "j" (PyStr "v") None
                   (testing.world_with "cache-bucket" "app1:j" ["N"%byte]) _)).
  discriminate.
Defined.

(** ** Operations in sequence *)

Section sequences.
Context `{Pickler}.
Variable self : S3Cache.t.

(** X9.  The last [set] wins: after two successful [set]s on a key, [get]
    returns the second value and the bucket is what the second [set] alone
    would have left. *)
Theorem set_overwrites key v1 v2 t1 t2 body1 body2 w :
  pickle_dumps v1 = Some body1 →
  pickle_dumps v2 = Some body2 →
  pickle_loads body2 = Some v2 →
  backend_ok 4 w →
  ∃ w1 w2 w3,
    S3Cache.set self key v1 t1 w = (Ok true, w1) ∧
    S3Cache.set self key v2 t2 w1 = (Ok true, w2) ∧
    S3Cache.get self key w2 = (Ok v2, w3) ∧
    objects w2 = objects (S3Cache.set self key v2 t2 w).2.
Proof.
  intros D1 D2 L B.
  destruct (set_step self 3 key v1 t1 body1 w D1 B) as (w1 & E1 & B1 & O1).
  destruct (set_step self 2 key v2 t2 body2 w1 D2 B1) as (w2 & E2 & B2 & O2).
  assert (stored self key w2 = Some body2) as S2
    by (unfold stored; rewrite O2; apply lookup_insert_eq).
  destruct (get_step self 0 key body2 v2 w2 S2 L B2) as (w3 & E3 & _ & _).
  exists w1, w2, w3. repeat split; try assumption.
  destruct (set_step self 3 key v2 t2 body2 w D2 B) as (w2' & E2' & _ & O2').
  rewrite E2', O2, O1. cbn [snd]. rewrite O2'. apply insert_insert_eq.
Qed.

(** X10.  [add] on a key that is not stored, with the backend answering: it
    returns [True] and the [get] that follows returns the value. *)
Theorem add_then_get key value timeout body w :
  stored self key w = None →
  pickle_dumps value = Some body →
  pickle_loads body = Some value →
  backend_ok 4 w →
  ∃ w1 w2,
    S3Cache.add self key value timeout w = (Ok true, w1) ∧
    S3Cache.get self key w1 = (Ok value, w2).
Proof.
  intros S0 D L B. rewrite add_run.
  destruct (key_exists_step self 3 key w B) as (w0 & E0 & B0 & O0).
  rewrite E0, S0. cbn.
  destruct (set_step self 2 key value timeout body w0 D B0) as (w1 & E1 & B1 & O1).
  assert (stored self key w1 = Some body) as S1
    by (unfold stored; rewrite O1; apply lookup_insert_eq).
  destruct (get_step self 0 key body value w1 S1 L B1) as (w2 & E2 & _ & _).
  exists w1, w2. split; assumption.
Qed.

(** X11.  [add] relies on the probe, and the probe reads every exception as "not
    there": when the probe's request fails and the upload goes through,
    [add] returns [True] and the object under the key is the pickle of the
    new value, whatever was stored before. *)
Theorem add_overwrites_after_failed_probe key value timeout body e w :
  next_fault w = Some e →
  backend_ok 1 (consume w) →
  pickle_dumps value = Some body →
  (S3Cache.add self key value timeout w).1 = Ok true ∧
  stored self key (S3Cache.add self key value timeout w).2 = Some body.
Proof.
  intros F B D. rewrite add_run, key_exists_run. cbv zeta. cbn [fst snd].
  rewrite F.
  assert (backend_ok 1 (consume (add_call (head_call self key) w))) as B1.
  { apply (backend_ok_faults 1 (consume w)); [|exact B].
    rewrite !faults_consume. reflexivity. }
  rewrite set_run, D. cbv zeta. rewrite (backend_ok_next _ _ B1). cbn.
  split; [reflexivity|]. unfold stored; cbn. apply lookup_insert_eq.
Qed.

End sequences.

(** Witness of X9: ["a"] then ["b"] under one key of an empty bucket. *)
Lemma set_overwrites_witness :
  ∃ w1 w2 w3,
    S3Cache.set testing.cache "k" (PyStr "a") None testing.empty_world = (Ok true, w1) ∧
    S3Cache.set testing.cache "k" (PyStr "b") (Some 5%Z) w1 = (Ok true, w2) ∧
    S3Cache.get testing.cache "k" w2 = (Ok (PyStr "b"), w3) ∧
    objects w2 =
      objects (S3Cache.set testing.cache "k" (PyStr "b") (Some 5%Z) testing.empty_world).2.
Proof.
  apply (set_overwrites testing.cache "k" (PyStr "a") (PyStr "b") None (Some 5%Z)
           ["S"%byte; "a"%byte] ["S"%byte; "b"%byte] testing.empty_world).
  - reflexivity.
  - reflexivity.
  - reflexivity.
  - vm_compute. constructor.
Defined.

(** Witness of X10: [add] on an empty bucket. *)
Lemma add_then_get_witness :
  ∃ w1 w2,
    S3Cache.add testing.cache "k" (PyBool true) None testing.empty_world = (Ok true, w1) ∧
    S3Cache.get testing.cache "k" w1 = (Ok (PyBool true), w2).
Proof.
  apply (add_then_get testing.cache "k" (PyBool true) None ["T"%byte]
           testing.empty_world).
  - vm_compute; reflexivity.
  - reflexivity.
  - reflexivity.
  - vm_compute. constructor.
Defined.

(** Witness of X11: the key holds ["a"], the network is down for the probe, and
    [add] stores ["b"] over it. *)
Lemma add_overwrites_after_failed_probe_witness :
  let w := World {[ ("cache-bucket", "app1:k") := ["S"%byte; "a"%byte] ]}
             [Some EndpointConnectionError] [] [] in
  (S3Cache.add testing.cache "k" (PyStr "b") None w).1 = Ok true ∧
  stored testing.cache "k" (S3Cache.add testing.cache "k" (PyStr "b") None w).2
    = Some ["S"%byte; "b"%byte].
Proof.
  apply (add_overwrites_after_failed_probe testing.cache "k" (PyStr "b") None
           ["S"%byte; "b"%byte] EndpointConnectionError).
  - reflexivity.
  - vm_compute. constructor.
  - reflexivity.
Defined.

(** ** Caches that share a bucket *)

Lemma append_eq_prefix p1 p2 k1 k2 :
  p1 +:+ k1 = p2 +:+ k2 →
  String.prefix p1 p2 = true ∨ String.prefix p2 p1 = true.
Proof.
  revert p2. induction p1 as [|a p1 IH]; intros [|b p2] E.
  - left. reflexivity.
  - left. reflexivity.
  - right. reflexivity.
  - injection E as -> E. destruct (IH _ E) as [P|P]; [left|right];
      cbn; destruct (Ascii.ascii_dec b b); congruence.
Qed.

Lemma append_append p s k : (p +:+ s) +:+ k = p +:+ (s +:+ k).
Proof.
  induction p as [|a p IH]; [reflexivity|].
  change (String a ((p +:+ s) +:+ k) = String a (p +:+ (s +:+ k))).
  rewrite IH. reflexivity.
Qed.

Section sharing.
Context `{Pickler}.

(** X12.  Two caches whose prefixes are not prefixes of one another never name
    the same object: [set] and [add] through one leave what the other has
    stored, under every key, also in the same bucket. *)
Theorem separate_prefixes_do_not_interfere self other key key' value timeout w :
  String.prefix (S3Cache.key_prefix self) (S3Cache.key_prefix other) = false →
  String.prefix (S3Cache.key_prefix other) (S3Cache.key_prefix self) = false →
  stored other key' (S3Cache.set self key value timeout w).2 = stored other key' w ∧
  stored other key' (S3Cache.add self key value timeout w).2 = stored other key' w.
Proof.
  intros P1 P2. unfold stored. apply set_touches_one_object.
  intros [= _ E]. destruct (append_eq_prefix _ _ _ _ E); congruence.
Qed.

(** X13.  A prefix that extends another one does not separate: what a cache with
    prefix [p +:+ s] stores under [key], the cache with prefix [p] on the
    same bucket reads under [s +:+ key]. *)
Theorem nested_prefixes_share_objects bucket p s d1 d2 a1 a2 key value timeout body w :
  pickle_dumps value = Some body →
  pickle_loads body = Some value →
  backend_ok 3 w →
  ∃ w1 w2,
    S3Cache.set (S3Cache.__init__ bucket (p +:+ s) d1 a1) key value timeout w
      = (Ok true, w1) ∧
    S3Cache.get (S3Cache.__init__ bucket p d2 a2) (s +:+ key) w1 = (Ok value, w2).
Proof.
  intros D L B.
  destruct (set_step (S3Cache.__init__ bucket (p +:+ s) d1 a1) 2 key value timeout
              body w D B) as (w1 & E1 & B1 & O1).
  assert (stored (S3Cache.__init__ bucket p d2 a2) (s +:+ key) w1 = Some body) as S1.
  { unfold stored. rewrite O1. cbn. rewrite append_append. apply lookup_insert_eq. }
  destruct (get_step _ 0 _ body value w1 S1 L B1) as (w2 & E2 & _ & _).
  exists w1, w2. split; assumption.
Qed.

End sharing.

(** Witness of X12: caches under ["app1:"] and ["app2:"] in one bucket. *)
Lemma separate_prefixes_do_not_interfere_witness :
  let other := S3Cache.__init__ "cache-bucket" "app2:" 300 [] in
  let w := testing.world_with "cache-bucket" "app2:k" ["N"%byte] in
  stored other "k" (S3Cache.set testing.cache "k" (PyStr "v") None w).2 = Some ["N"%byte].
Proof.
  refine (proj1 (separate_prefixes_do_not_interfere testing.cache
                   (S3Cache.__init__ "cache-bucket" "app2:" 300 []) "k" "k"
                   (PyStr "v") None
                   (testing.world_with "cache-bucket" "app2:k" ["N"%byte]) _ _)).
  - reflexivity.
  - reflexivity.
Defined.

(** Witness of X13: a cache under ["app1:"] reads, as ["eu:k"], what a cache under
    ["app1:eu:"] stored as ["k"]. *)
Lemma nested_prefixes_share_objects_witness :
  ∃ w1 w2,
    S3Cache.set (S3Cache.__init__ "cache-bucket" "app1:eu:" 300 []) "k"
      (PyStr "v") None testing.empty_world = (Ok true, w1) ∧
    S3Cache.get testing.cache "eu:k" w1 = (Ok (PyStr "v"), w2).
Proof.
  apply (nested_prefixes_share_objects "cache-bucket" "app1:" "eu:" 300%Z 300%Z [] []
           "k" (PyStr "v") None ["S"%byte; "v"%byte] testing.empty_world).
  - reflexivity.
  - reflexivity.
  - vm_compute. constructor.
Defined.

(** ** Exceptions and calls *)

Section exceptions_and_calls.
Context `{Pickler}.
Variable self : S3Cache.t.

(** X14.  No exception of the backend leaves [set] or [add]: [set] raises
    exactly when pickling the value fails, and [add] exactly when moreover
    the probe answered [False]. *)
Theorem set_add_raise_iff key value timeout w :
  ((∃ e, (S3Cache.set self key value timeout w).1 = Raise e) ↔
     pickle_dumps value = None) ∧
  ((∃ e, (S3Cache.add self key value timeout w).1 = Raise e) ↔
     pickle_dumps value = None ∧
     (S3Cache._key_exists self key w).1 = Ok false).
Proof.
  assert (∀ w0, (∃ e, (S3Cache.set self key value timeout w0).1 = Raise e) ↔
                pickle_dumps value = None) as S.
  { intros w0. rewrite set_run.
    destruct (pickle_dumps value); [destruct (next_fault w0)|]; cbn.
    - split; [intros [? ?] | intros ?]; discriminate.
    - split; [intros [? ?] | intros ?]; discriminate.
    - split; eauto. }
  split; [apply S|].
  rewrite add_run.
  destruct (S3Cache._key_exists self key w) as [[[]|e0] w1] eqn:E; cbn.
  - split; [intros [? ?] | intros (_ & ?)]; discriminate.
  - rewrite S. split; [auto | intros [? _]; assumption].
  - rewrite key_exists_run in E. discriminate.
Qed.

(** X15.  The calls each operation makes, in order.  [get], [delete] and [add]
    start with the probe.  [get] goes on to the download and [delete] to the
    delete call exactly when the probe answered [True]; [add] goes on to
    the upload exactly when the probe answered [False] and the value
    pickles; [set] uploads exactly when the value pickles.  No operation
    makes more than two calls. *)
Theorem calls_made key value timeout w :
  let bucket := S3Cache.bucket_name self in
  let full := S3Cache.key_prefix self +:+ key in
  let found := (S3Cache._key_exists self key w).1 in
  calls (S3Cache.get self key w).2 =
    (calls w ++ head_call self key ::
       match found with Ok true => [DownloadFileobj bucket full] | _ => [] end)%list ∧
  calls (S3Cache.delete self key w).2 =
    (calls w ++ head_call self key ::
       match found with Ok true => [DeleteObject [bucket; full] []] | _ => [] end)%list ∧
  calls (S3Cache.add self key value timeout w).2 =
    (calls w ++ head_call self key ::
       match found, pickle_dumps value with
       | Ok false, Some body => [UploadFileobj body bucket full]
       | _, _ => []
       end)%list ∧
  calls (S3Cache.set self key value timeout w).2 =
    (calls w ++
       match pickle_dumps value with
       | Some body => [UploadFileobj body bucket full]
       | None => []
       end)%list.
Proof.
  cbv zeta. rewrite get_run, delete_run, add_run, key_exists_run.
  cbv zeta. cbn [fst snd].
  assert (∀ w0, calls (S3Cache.set self key value timeout w0).2 =
                (calls w0 ++
                   match pickle_dumps value with
                   | Some body => [UploadFileobj body (S3Cache.bucket_name self)
                                     (S3Cache.key_prefix self +:+ key)]
                   | None => []
                   end)%list) as S.
  { intros w0. rewrite set_run.
    destruct (pickle_dumps value); [destruct (next_fault w0)|]; cbn;
      rewrite ?calls_consume, ?app_nil_r; reflexivity. }
  repeat split.
  - destruct (next_fault w), (stored self key w);
      try destruct (next_fault _); try destruct (pickle_loads _);
      repeat (cbn; rewrite ?calls_consume); rewrite <- ?app_assoc; reflexivity.
  - destruct (next_fault w), (stored self key w);
      repeat (cbn; rewrite ?calls_consume); rewrite <- ?app_assoc; reflexivity.
  - destruct (next_fault w), (stored self key w); cbn [snd];
      rewrite ?S; repeat (cbn; rewrite ?calls_consume);
      rewrite <- ?app_assoc; cbn; destruct (pickle_dumps value); reflexivity.
  - apply S.
Qed.

End exceptions_and_calls.
